(** * announce_completion.py: platform dispatch onto a text-to-speech command

    A shallow embedding of [src/announce_completion.py].  The script asks the
    interpreter for the platform name, starts one external speech command
    through [subprocess.run], and answers every exception of the attempt by
    printing two lines.  The embedding keeps the two effects of the script
    explicit: the text printed on standard output and the ordered log of
    process launches requested from the operating system.  Printing can fail
    too: the codec of standard output is a parameter of the script, and the
    statements about what is printed are made for a standard output that
    encodes every text. *)

From Stdlib Require Import String Ascii List ZArith Lia Bool.
Import ListNotations.

Open Scope list_scope.
Open Scope string_scope.

(** ** Text *)

(** The two characters the script needs that cannot be typed inside a string
    literal here: the double quote of the PowerShell call and the line feed
    that [print] appends. *)
Definition dquote : string := String (ascii_of_nat 34) EmptyString.
Definition newline : string := String (ascii_of_nat 10) EmptyString.

(** [infix t s]: the text [t] occurs somewhere inside [s] (Python's [t in s]). *)
Fixpoint infix (t s : string) : bool :=
  match s with
  | EmptyString => prefix t s
  | String _ s' => prefix t s || infix t s'
  end.

(** ** Exceptions *)

(** The exceptions [subprocess.run] and [print] can raise, as far as the
    handlers of the script tell them apart.  [OtherException] stands for every
    remaining subclass of [Exception] (PermissionError, ValueError, ...). *)
Inductive exn : Type :=
| CalledProcessError (returncode : Z) (cmd : list string)
| FileNotFoundError (filename : string)
| OtherException (text : string).

(** The classes named in the [except] clauses of the script. *)
Inductive exn_class : Type :=
| CalledProcessErrorClass
| FileNotFoundErrorClass
| ExceptionClass.

Definition isinstance (e : exn) (c : exn_class) : bool :=
  match c, e with
  | ExceptionClass, _ => true
  | CalledProcessErrorClass, CalledProcessError _ _ => true
  | FileNotFoundErrorClass, FileNotFoundError _ => true
  | _, _ => false
  end.

(** ** The machine the script runs on *)

(** What the operating system answers when asked to start a program. *)
Inductive spawn_outcome : Type :=
| Exited (status : Z)
| NoSuchFile
| SpawnError (text : string).

(** Everything the script obtains from outside itself: the platform name
    returned by [platform.system()], the fate of each launched command line,
    and the text [str(e)] that the interpreter renders for an exception. *)
Record runtime : Type := {
  system : string;
  exec : list string -> spawn_outcome;
  str_exn : exn -> string
}.

(** The observable state: what has been printed, and which command lines were
    handed to the operating system, oldest first. *)
Record io : Type := {
  stdout : string;
  popen_calls : list (list string)
}.

Definition io_start : io := {| stdout := ""; popen_calls := [] |}.

(** ** A state and exception monad *)

Inductive result (A : Type) : Type :=
| Ok (a : A)
| Raise (e : exn).
Arguments Ok {A} a.
Arguments Raise {A} e.

Definition M (A : Type) : Type := io -> result A * io.

Definition ret {A} (a : A) : M A := fun w => (Ok a, w).

Definition bind {A B} (m : M A) (k : A -> M B) : M B :=
  fun w =>
    match m w with
    | (Ok a, w') => k a w'
    | (Raise e, w') => (Raise e, w')
    end.

Definition raise {A} (e : exn) : M A := fun w => (Raise e, w).

Notation "x <- m ;; k" := (bind m (fun x => k))
  (at level 61, m at next level, right associativity).
Notation "m ;; k" := (bind m (fun _ => k))
  (at level 61, right associativity).

(** The first clause whose class the exception belongs to, as Python selects
    it: clauses are tried in textual order. *)
Fixpoint select_handler {A} (clauses : list (exn_class * (exn -> M A))) (e : exn)
  : option (exn -> M A) :=
  match clauses with
  | [] => None
  | (c, h) :: rest => if isinstance e c then Some h else select_handler rest e
  end.

(** [try: body except c1 as e: h1 except c2 as e: h2 ...].  An exception
    raised by a handler is not offered to the sibling clauses. *)
Definition try_except {A} (body : M A) (clauses : list (exn_class * (exn -> M A)))
  : M A :=
  fun w =>
    match body w with
    | (Ok a, w') => (Ok a, w')
    | (Raise e, w') =>
        match select_handler clauses e with
        | Some h => h e w'
        | None => (Raise e, w')
        end
    end.

(** ** Library calls *)

(** What a successful [print(s)] leaves on standard output: the text followed
    by a line feed. *)
Definition write_line (s : string) : M unit :=
  fun w => (Ok tt, {| stdout := stdout w ++ s ++ newline;
                      popen_calls := popen_calls w |}).

(** The exception [print] raises for a text that the codec of standard output
    cannot encode.  It is a [ValueError]: an [Exception], but neither a
    [CalledProcessError] nor a [FileNotFoundError]. *)
Definition UnicodeEncodeError : exn := OtherException "UnicodeEncodeError".

(** [print(s)] on a standard output whose codec encodes the texts [accepts]
    holds of.  The text is encoded whole before any of it is written, so a
    refused text leaves standard output as it was. *)
Definition print (accepts : string -> bool) (s : string) : M unit :=
  fun w => if accepts s then write_line s w else (Raise UnicodeEncodeError, w).

(** With [shell=True] on a POSIX system, [Popen] prepends the shell and its
    [-c] flag to the argument list it was given. *)
Definition unix_shell : string := "/bin/sh".

Definition popen_argv (args : list string) (shell : bool) : list string :=
  if shell then unix_shell :: "-c" :: args else args.

(** The command text a shell started as [sh -c command_string name args...]
    interprets: the operand right after [-c]. *)
Definition sh_command_string (argv : list string) : string :=
  nth 2 argv "".

Section Announcer.

Variable rt : runtime.

(** The codec of standard output: the texts it can encode. *)
Variable accepts : string -> bool.

Definition platform_system : M string := fun w => (Ok (system rt), w).

(** [subprocess.run(args, shell=..., check=...)]: record the launch, wait
    for the command, and with [check] turn a non-zero status into
    [CalledProcessError]. *)
Definition subprocess_run (args : list string) (shell check : bool) : M unit :=
  fun w =>
    let argv := popen_argv args shell in
    let w' := {| stdout := stdout w;
                 popen_calls := popen_calls w ++ [argv] |} in
    match exec rt argv with
    | Exited status =>
        if check && negb (status =? 0)%Z
        then (Raise (CalledProcessError status args), w')
        else (Ok tt, w')
    | NoSuchFile => (Raise (FileNotFoundError (hd "" argv)), w')
    | SpawnError text => (Raise (OtherException text), w')
    end.

(** The script text handed to PowerShell: the message is spliced between
    two double quotes of a fixed program. *)
Definition windows_script (message : string) : string :=
  "Add-Type -AssemblyName System.Speech; $speak = New-Object System.Speech.Synthesis.SpeechSynthesizer; $speak.Speak("
    ++ dquote ++ message ++ dquote ++ ")".

Definition announce_completion_on (message : string) : M unit :=
  try_except
    (sys <- platform_system ;;
     if sys =? "Darwin" then
       subprocess_run ["say"; message] false true
     else if sys =? "Windows" then
       subprocess_run ["powershell"; "-Command"; windows_script message]
                      false true
     else if sys =? "Linux" then
       try_except
         (subprocess_run ["espeak"; message] false true)
         [(FileNotFoundErrorClass,
           fun _ =>
             subprocess_run ["echo"; message; "|"; "festival"; "--tts"]
                            true true)]
     else
       print accepts ("Unsupported system: " ++ sys) ;;
       print accepts ("Message: " ++ message))
    [(CalledProcessErrorClass,
      fun e =>
        print accepts ("Error running text-to-speech: " ++ str_exn rt e) ;;
        print accepts ("Message: " ++ message));
     (ExceptionClass,
      fun e =>
        print accepts ("Unexpected error: " ++ str_exn rt e) ;;
        print accepts ("Message: " ++ message))].

(** The [__main__] block, as a function of [sys.argv]. *)
Definition default_message : string :=
  "Barber Buddy development milestone completed!".

Definition main_on (argv : list string) : M unit :=
  if (1 <? length argv)%nat then
    let message := String.concat " " (skipn 1 argv) in
    announce_completion_on message
  else
    announce_completion_on default_message.

End Announcer.

(** ** The script on a standard output that encodes every text *)

(** The codec that refuses nothing. *)
Definition every_text : string -> bool := fun _ => true.

Definition announce_completion (rt : runtime) (message : string) : M unit :=
  announce_completion_on rt every_text message.

Definition main (rt : runtime) (argv : list string) : M unit :=
  main_on rt every_text argv.

(** One run of the function in a fresh process. *)
Definition run_announce (rt : runtime) (message : string)
  : result unit * io :=
  announce_completion rt message io_start.

(** ** Vocabulary of the statements *)

(** The platform names that select a speech command. *)
Definition recognized (sys : string) : bool :=
  (sys =? "Darwin") || (sys =? "Windows") || (sys =? "Linux").


(** The arguments written one after the other with one space between
    neighbours, built from the left as a reader of the command line would. *)
Definition with_single_spaces (args : list string) : string :=
  match args with
  | [] => ""
  | first :: others => fold_left (fun acc a => (acc ++ " " ++ a)%string) others first
  end.

(** The final state of one run. *)
Definition final (rt : runtime) (message : string) : io :=
  snd (run_announce rt message).




(** ** Sample machines *)

(** A rendering of exceptions in the manner of CPython, enough to tell the
    three kinds apart. *)
Definition sample_str (e : exn) : string :=
  match e with
  | CalledProcessError _ cmd =>
      "Command " ++ hd "" cmd ++ " returned non-zero exit status."
  | FileNotFoundError filename =>
      "[Errno 2] No such file or directory: " ++ filename
  | OtherException text => text
  end.

(** A machine named [sys] on which every command exits with [status]. *)
Definition uniform_machine (sys : string) (status : Z) : runtime :=
  {| system := sys; exec := fun _ => Exited status; str_exn := sample_str |}.

(** A machine named [sys] with no speech program installed: only the shell
    can be started, and it exits with [status]. *)
Definition bare_machine (sys : string) (status : Z) : runtime :=
  {| system := sys;
     exec := fun argv =>
       if hd "" argv =? unix_shell then Exited status else NoSuchFile;
     str_exn := sample_str |}.




(** * Properties *)

(** ** Text lemmas *)

Lemma append_assoc (a b c : string) : (a ++ b) ++ c = a ++ b ++ c.
Proof.
  induction a as [|ch a IH]; cbn; [reflexivity | now rewrite IH].
Qed.

Lemma append_nil_r (a : string) : a ++ "" = a.
Proof.
  induction a as [|ch a IH]; cbn; [reflexivity | now rewrite IH].
Qed.

Lemma prefix_append (t b : string) : prefix t (t ++ b) = true.
Proof.
  induction t as [|ch t IH]; cbn.
  - now destruct b.
  - destruct (ascii_dec ch ch) as [_|ne]; [exact IH | now elim ne].
Qed.

Lemma prefix_split (t s : string) :
  prefix t s = true -> exists b, s = t ++ b.
Proof.
  revert s; induction t as [|ch t IH]; intros s H.
  - now exists s.
  - destruct s as [|ch' s]; cbn in H; [discriminate|].
    destruct (ascii_dec ch ch') as [->|_]; [|discriminate].
    destruct (IH s H) as [b ->]. now exists b.
Qed.

Lemma infix_of_prefix (t s : string) : prefix t s = true -> infix t s = true.
Proof.
  destruct s; cbn; intros H; [exact H | now rewrite H].
Qed.

Lemma infix_append (a t b : string) : infix t (a ++ t ++ b) = true.
Proof.
  induction a as [|ch a IH]; cbn.
  - apply infix_of_prefix, prefix_append.
  - rewrite IH. apply orb_true_r.
Qed.

(** [infix] decides occurrence. *)
Lemma infix_spec (t s : string) :
  infix t s = true <-> exists a b, s = a ++ t ++ b.
Proof.
  split.
  - induction s as [|ch s IH]; cbn [infix]; intros H.
    + destruct (prefix_split _ _ H) as [b E]. now exists "", b.
    + apply orb_true_iff in H as [H|H].
      * destruct (prefix_split _ _ H) as [b E]. now exists "", b.
      * destruct (IH H) as (a & b & ->). now exists (String ch a), b.
  - intros (a & b & ->). apply infix_append.
Qed.





(** ** Running the function *)

Ltac unfold_run :=
  unfold final, run_announce, announce_completion, announce_completion_on,
    every_text, try_except, bind, platform_system, subprocess_run, print,
    write_line, popen_argv, io_start.

Ltac by_platform rt :=
  destruct (system rt =? "Darwin") eqn:?;
  [| destruct (system rt =? "Windows") eqn:?;
     [| destruct (system rt =? "Linux") eqn:?]].

Ltac by_outcome rt :=
  repeat match goal with
    | |- context [exec rt ?argv] =>
        let st := fresh "status" in
        destruct (exec rt argv) as [st| |?] eqn:?;
        [destruct (Z.eqb_spec st 0); [subst st|] |..]; cbn
    end.

(** Membership in the short launch logs that arise, split into equations. *)
Ltac by_launch H :=
  cbn in H;
  repeat match type of H with
    | _ \/ _ => destruct H as [H|H]
    | False => destruct H
    end;
  try subst.





Section Codec.

#[local] Arguments append : simpl never.


End Codec.




(** C6: a run prints nothing exactly when the platform is recognized and a
    command it launched exited with status 0.  So a successful speech command
    leaves standard output empty, and output appears only on the
    unsupported-platform path or when no launched command succeeded. *)
Theorem silent_iff_command_succeeded (rt : runtime) (message : string) :
  stdout (final rt message) = "" <->
  recognized (system rt) = true /\
  exists argv,
    In argv (popen_calls (final rt message)) /\ exec rt argv = Exited 0.
Proof.
  unfold recognized. unfold_run; cbn.
  by_platform rt; cbn; by_outcome rt;
    (split;
     [ intros H; first [discriminate H | split; [reflexivity | eauto 6 using in_eq, in_cons]]
     | intros [_ (argv & Hin & Hexit)]; by_launch Hin; congruence ]).
Qed.

(** ** The command line *)

Lemma fold_spaces_append (others : list string) (p q : string) :
  fold_left (fun acc a => (acc ++ " " ++ a)%string) others (p ++ q)
  = p ++ fold_left (fun acc a => (acc ++ " " ++ a)%string) others q.
Proof.
  revert q; induction others as [|x others IH]; intros q; cbn [fold_left].
  - reflexivity.
  - rewrite append_assoc. apply IH.
Qed.

(** Python's [" ".join] agrees with writing the arguments left to right with
    single spaces in between. *)
Lemma concat_with_single_spaces (args : list string) :
  String.concat " " args = with_single_spaces args.
Proof.
  destruct args as [|first others]; [reflexivity|].
  revert first; induction others as [|x others IH]; intros first.
  - reflexivity.
  - change (first ++ " " ++ String.concat " " (x :: others)
            = with_single_spaces (first :: x :: others)).
    rewrite IH. unfold with_single_spaces; cbn [fold_left].
    now rewrite <- !fold_spaces_append.
Qed.

(** C7: with one or more positional arguments after the program name, the
    message handed to [announce_completion] is those arguments written one
    after the other with single spaces in between. *)
Theorem main_joins_arguments
    (rt : runtime) (prog : string) (args : list string) :
  args <> [] ->
  main rt (prog :: args) = announce_completion rt (with_single_spaces args).
Proof.
  intros Hargs. destruct args as [|first others]; [contradiction|].
  unfold main, main_on. cbn [length Nat.ltb Nat.leb skipn].
  now rewrite concat_with_single_spaces.
Qed.

(** C8: with no positional argument, [announce_completion] receives the fixed
    milestone message, character for character. *)
Theorem main_default_message (rt : runtime) (prog : string) :
  main rt [prog]
  = announce_completion rt "Barber Buddy development milestone completed!".
Proof. reflexivity. Qed.

(** ** Launched commands *)

(** C9: on Windows the only launch is PowerShell with [-Command] and a script
    text that is a fixed opening, the message as it was given, and a fixed
    ending: the raw message is a substring of the script, for every message. *)
Theorem windows_script_embeds_message (rt : runtime) (message : string) :
  system rt = "Windows" ->
  popen_calls (final rt message)
  = [["powershell"; "-Command"; windows_script message]] /\
  windows_script message
  = ("Add-Type -AssemblyName System.Speech; $speak = New-Object System.Speech.Synthesis.SpeechSynthesizer; $speak.Speak("
       ++ dquote) ++ message ++ (dquote ++ ")") /\
  infix message (windows_script message) = true.
Proof.
  intros Hsys. split; [|split].
  - unfold_run; cbn. rewrite Hsys; cbn. by_outcome rt; reflexivity.
  - unfold windows_script. now rewrite append_assoc.
  - unfold windows_script. rewrite <- append_assoc. apply infix_append.
Qed.


(** C2, as the code behaves: on Linux, when [espeak] cannot be found, the
    second launch is the shell with [-c], and the command text the shell
    interprets is the single word [echo].  The message, the bar and
    [festival] follow as positional parameters of the shell; the command text
    names neither [festival] nor a pipeline. *)
Theorem fallback_shell_runs_bare_echo (rt : runtime) (message : string) :
  system rt = "Linux" ->
  exec rt ["espeak"; message] = NoSuchFile ->
  popen_calls (final rt message)
  = [["espeak"; message];
     ["/bin/sh"; "-c"; "echo"; message; "|"; "festival"; "--tts"]] /\
  sh_command_string (last (popen_calls (final rt message)) []) = "echo" /\
  infix "festival"
    (sh_command_string (last (popen_calls (final rt message)) [])) = false /\
  infix "|"
    (sh_command_string (last (popen_calls (final rt message)) [])) = false.
Proof.
  intros Hsys Hespeak.
  assert (popen_calls (final rt message)
          = [["espeak"; message];
             ["/bin/sh"; "-c"; "echo"; message; "|"; "festival"; "--tts"]])
    as ->.
  { unfold_run; cbn. rewrite Hsys; cbn. rewrite Hespeak; cbn.
    by_outcome rt; reflexivity. }
  repeat split.
Qed.

(** ** The properties at concrete machines *)







(** C6 at a Mac whose [say] exits with status 0: nothing is printed. *)
Lemma silent_iff_command_succeeded_mac :
  exec (uniform_machine "Darwin" 0) ["say"; "Build done"] = Exited 0 /\
  stdout (final (uniform_machine "Darwin" 0) "Build done") = "".
Proof.
  split; [reflexivity|].
  apply (proj2 (silent_iff_command_succeeded (uniform_machine "Darwin" 0) "Build done")).
  split; [reflexivity|].
  exists ["say"; "Build done"]. split; [vm_compute; auto | reflexivity].
Defined.

(** C7 at the command line [announce_completion.py Build done]. *)
Lemma main_joins_arguments_build_done :
  with_single_spaces ["Build"; "done"] = "Build done" /\
  main (uniform_machine "Darwin" 0) ["announce_completion.py"; "Build"; "done"]
  = announce_completion (uniform_machine "Darwin" 0) "Build done".
Proof.
  split; [reflexivity|].
  apply (main_joins_arguments (uniform_machine "Darwin" 0)
           "announce_completion.py" ["Build"; "done"]).
  discriminate.
Defined.

(** C9 at a message that itself holds a double quote: it reaches the script
    unchanged. *)
Lemma windows_script_embeds_message_with_quote :
  system (uniform_machine "Windows" 0) = "Windows" /\
  popen_calls (final (uniform_machine "Windows" 0) ("say " ++ dquote ++ "hi" ++ dquote))
  = [["powershell"; "-Command";
      windows_script ("say " ++ dquote ++ "hi" ++ dquote)]] /\
  infix ("say " ++ dquote ++ "hi" ++ dquote)
        (windows_script ("say " ++ dquote ++ "hi" ++ dquote)) = true.
Proof.
  split; [reflexivity|].
  destruct (windows_script_embeds_message (uniform_machine "Windows" 0)
              ("say " ++ dquote ++ "hi" ++ dquote) eq_refl) as (Hcalls & _ & Hin).
  split; [exact Hcalls | exact Hin].
Defined.


(** C2 at a Linux machine with no [espeak] and the message [Tests passed]:
    the shell is asked to run [echo] alone. *)
Lemma fallback_shell_runs_bare_echo_tests_passed :
  exec (bare_machine "Linux" 0) ["espeak"; "Tests passed"] = NoSuchFile /\
  popen_calls (final (bare_machine "Linux" 0) "Tests passed")
  = [["espeak"; "Tests passed"];
     ["/bin/sh"; "-c"; "echo"; "Tests passed"; "|"; "festival"; "--tts"]] /\
  sh_command_string
    (last (popen_calls (final (bare_machine "Linux" 0) "Tests passed")) [])
  = "echo".
Proof.
  split; [reflexivity|].
  destruct (fallback_shell_runs_bare_echo (bare_machine "Linux" 0) "Tests passed"
              eq_refl eq_refl) as (Hcalls & Hscript & _).
  split; [exact Hcalls | exact Hscript].
Defined.

(** * Further properties of the script *)

(** ** The shape of a run *)

Ltac platform_names :=
  repeat match goal with
    | H : (_ =? _) = true |- _ => apply String.eqb_eq in H
    | H : (_ =? _) = false |- _ => apply String.eqb_neq in H
    end.


Lemma infix_refl (t : string) : infix t t = true.
Proof.
  rewrite <- (append_nil_r t) at 2. apply (infix_append "").
Qed.

(** X3: a run launches at most two commands.  It launches none exactly when
    the platform is not recognized, and two exactly when the platform is
    Linux and [espeak] could not be found: neither a non-zero exit nor any
    other launch error of [espeak] starts a second command. *)
Theorem at_most_two_launches (rt : runtime) (message : string) :
  (length (popen_calls (final rt message)) <= 2)%nat /\
  (popen_calls (final rt message) = [] <-> recognized (system rt) = false) /\
  (length (popen_calls (final rt message)) = 2%nat <->
   system rt = "Linux" /\ exec rt ["espeak"; message] = NoSuchFile).
Proof.
  unfold recognized. unfold_run; cbn.
  by_platform rt; cbn; by_outcome rt; platform_names;
    (split; [lia|]; split; split;
     try discriminate; try (intros [? ?]; congruence); auto).
Qed.




(** X6: every command a run launches starts the program that belongs to the
    platform ([say] on Darwin, [powershell] on Windows, [espeak] or the shell
    on Linux), whatever the message is, and carries the message, whole,
    inside one of the arguments after the program name. *)
Theorem launched_program_fits_platform
    (rt : runtime) (message : string) (argv : list string) :
  In argv (popen_calls (final rt message)) ->
  (system rt = "Darwin" /\ hd "" argv = "say" \/
   system rt = "Windows" /\ hd "" argv = "powershell" \/
   system rt = "Linux" /\ (hd "" argv = "espeak" \/ hd "" argv = "/bin/sh")) /\
  exists arg, In arg (tl argv) /\ infix message arg = true.
Proof.
  assert (Hscript : infix message (windows_script message) = true).
  { unfold windows_script. rewrite <- append_assoc. apply infix_append. }
  pose proof (infix_refl message) as Hself.
  unfold_run; cbn.
  by_platform rt; cbn; by_outcome rt; platform_names;
    intros Hin; by_launch Hin; cbn [hd tl];
    (split;
     [ tauto
     | first
         [ solve [ exists message; split; [|exact Hself];
                   cbn [In]; repeat first [left; reflexivity | right] ]
         | solve [ exists (windows_script message); split; [|exact Hscript];
                   cbn [In]; repeat first [left; reflexivity | right] ] ] ]).
Qed.

(** ** Grouping of the command-line arguments *)

Lemma concat_app (front back : list string) :
  front <> [] -> back <> [] ->
  String.concat " " (front ++ back)%list
  = String.concat " " front ++ " " ++ String.concat " " back.
Proof.
  intros Hfront Hback.
  induction front as [|a front IH]; [contradiction|].
  destruct front as [|b front].
  - destruct back as [|c back]; [contradiction | reflexivity].
  - change (a ++ " " ++ String.concat " " ((b :: front) ++ back)%list
            = (a ++ " " ++ String.concat " " (b :: front))
                ++ " " ++ String.concat " " back).
    rewrite IH by discriminate. now rewrite !append_assoc.
Qed.

(** X7: the announcement depends on the words of the command line and not on
    how they are grouped into arguments.  Passing the arguments separately,
    passing them already joined as one argument, and passing any two
    consecutive groups each joined into one argument all announce the same
    message. *)
Theorem main_ignores_argument_grouping
    (rt : runtime) (prog : string) (front back : list string) :
  front <> [] ->
  back <> [] ->
  main rt (prog :: front) = main rt [prog; String.concat " " front] /\
  main rt (prog :: front ++ back)%list
  = main rt [prog; String.concat " " front; String.concat " " back] /\
  main rt (prog :: front ++ back)%list
  = main rt [prog; String.concat " " (front ++ back)%list].
Proof.
  intros Hfront Hback.
  destruct front as [|a front]; [contradiction|].
  unfold main, main_on. cbn [length Nat.ltb Nat.leb skipn app].
  repeat split.
  change (String.concat " " [String.concat " " (a :: front);
                             String.concat " " back])
    with (String.concat " " (a :: front) ++ " " ++ String.concat " " back).
  now rewrite <- concat_app by (assumption || discriminate).
Qed.

(** ** The further properties at concrete machines *)


(** X6 at the shell launch of a Linux machine with no [espeak]. *)
Lemma launched_program_fits_platform_shell :
  In ["/bin/sh"; "-c"; "echo"; "Tests passed"; "|"; "festival"; "--tts"]
     (popen_calls (final (bare_machine "Linux" 0) "Tests passed")) /\
  exists arg,
    In arg ["-c"; "echo"; "Tests passed"; "|"; "festival"; "--tts"] /\
    infix "Tests passed" arg = true.
Proof.
  split; [vm_compute; auto|].
  apply (launched_program_fits_platform (bare_machine "Linux" 0) "Tests passed"
           ["/bin/sh"; "-c"; "echo"; "Tests passed"; "|"; "festival"; "--tts"]).
  vm_compute; auto.
Defined.

(** X7 at the command line [announce_completion.py Build is done]. *)
Lemma main_ignores_argument_grouping_build_is_done :
  main (uniform_machine "Darwin" 0) ["announce_completion.py"; "Build"; "is"; "done"]
  = main (uniform_machine "Darwin" 0) ["announce_completion.py"; "Build is"; "done"].
Proof.
  apply (main_ignores_argument_grouping (uniform_machine "Darwin" 0)
           "announce_completion.py" ["Build"; "is"] ["done"]); discriminate.
Defined.
